(** * Self-improving coding agent: the code transformation pipeline

    A shallow embedding of the module [agent] of [src/main.py] (classes
    [CodeAnalyzer], [CodeOptimizer], [AgentLearner] and [CodingAgent]) and the
    properties of its specification.

    Conventions of the embedding.
    - A Python [str] is a [string]; the character numbered [n] stands for the
      code point [n], so texts range over the code points below 256.
    - A Python [int] is a [Z]; [len] returns a [Z].
    - A Python [dict] with string keys is a [gmap string _].
    - The float returned by [_calculate_avg_reduction] is the rational it
      rounds; the literal [0.0] is the rational [0].
    - A call that can raise returns an [option]: [None] is the exception. The
      one operation of the program that can raise is the division of
      [_calculate_avg_reduction] ([ZeroDivisionError]).
    - Methods that mutate [self] take the object and return the new one.
    - [datetime.now().isoformat()] is an input of the call that reads it. *)

From Stdlib Require Import ZArith QArith Ascii Permutation Sorted.
From stdpp Require Import gmap strings list fin_maps.

Close Scope Q_scope.
Open Scope Z_scope.

(** ** The string methods of Python the program calls *)

Module Py.

(** [len(l)] of a list and of a dictionary. *)
Definition len {A} (l : list A) : Z := Z.of_nat (length l).
Definition len_dict {A} (d : gmap string A) : Z := Z.of_nat (size d).

(** [c.isspace()] on the code points below 256: the characters
    [str.split()], [str.strip()] and the regex class [\s] treat as white
    space. *)
Definition isspace (c : ascii) : bool :=
  match c with
  | "009" | "010" | "011" | "012" | "013"
  | "028" | "029" | "030" | "031" | " "
  | "133" | "160" => true
  | _ => false
  end%char.

(** [c.isalnum()] on the code points below 256: letters, digits and the
    numeric characters of Latin-1. *)
Definition isalnum (c : ascii) : bool :=
  let n := N_of_ascii c in
  ((48 <=? n) && (n <=? 57) || (65 <=? n) && (n <=? 90)
   || (97 <=? n) && (n <=? 122)
   || (n =? 170) || (n =? 178) || (n =? 179) || (n =? 181)
   || (n =? 185) || (n =? 186) || (188 <=? n) && (n <=? 190)
   || (192 <=? n) && (n <=? 214) || (216 <=? n) && (n <=? 246)
   || (248 <=? n) && (n <=? 255))%N.

(** [s.startswith(p)] *)
Fixpoint startswith (s p : string) : bool :=
  match p, s with
  | "", _ => true
  | String _ _, "" => false
  | String a p', String b s' => Ascii.eqb a b && startswith s' p'
  end.

(** [sub in s] *)
Fixpoint contains (sub s : string) : bool :=
  startswith s sub
  || match s with
     | "" => false
     | String _ s' => contains sub s'
     end.

(** [s.split(sep)] for a one-character separator: the pieces between the
    occurrences of [sep], empty pieces included; never the empty list. *)
Fixpoint split (s : string) (sep : ascii) : list string :=
  match s with
  | "" => [""]
  | String c s' =>
      if Ascii.eqb c sep then "" :: split s' sep
      else match split s' sep with
           | piece :: pieces => String c piece :: pieces
           | [] => [String c ""]
           end
  end.

(** [sep.join(l)] *)
Fixpoint join (sep : string) (l : list string) : string :=
  match l with
  | [] => ""
  | [x] => x
  | x :: l' => x +:+ sep +:+ join sep l'
  end.

(** [s.split()]: the maximal runs of characters that are not white space.
    [cur] is the run being read. *)
Fixpoint split_ws_go (cur : string) (s : string) : list string :=
  match s with
  | "" => match cur with "" => [] | _ => [cur] end
  | String c s' =>
      if isspace c
      then match cur with
           | "" => split_ws_go "" s'
           | _ => cur :: split_ws_go "" s'
           end
      else split_ws_go (cur +:+ String c "") s'
  end.

Definition split_ws (s : string) : list string := split_ws_go "" s.

Fixpoint lstrip (s : string) : string :=
  match s with
  | "" => ""
  | String c s' => if isspace c then lstrip s' else s
  end.

Fixpoint rstrip (s : string) : string :=
  match s with
  | "" => ""
  | String c s' =>
      match rstrip s' with
      | "" => if isspace c then "" else String c ""
      | r => String c r
      end
  end.

(** [s.strip()] *)
Definition strip (s : string) : string := rstrip (lstrip s).

(** [bool(s)] for a string: true unless empty. *)
Definition truthy (s : string) : bool :=
  match s with "" => false | _ => true end.

(** [x < y] on strings: lexicographic on code points. *)
Definition lt (x y : string) : bool := String.ltb x y.

(** [l.sort()]: a stable sort that compares with [<] only. *)
Fixpoint insert_sorted (x : string) (l : list string) : list string :=
  match l with
  | [] => [x]
  | y :: l' => if lt y x then y :: insert_sorted x l' else x :: l
  end.

Fixpoint sort (l : list string) : list string :=
  match l with
  | [] => []
  | x :: l' => insert_sorted x (sort l')
  end.

(** The newline character. *)
Definition nl : ascii := "010"%char.

End Py.

(** ** The part of [re] the program uses *)

Module Re.

(** The atoms of the pattern: a literal character, [cls+] and the capturing
    group [(cls+)], both greedy. *)
Inductive atom :=
| Chr (c : ascii)
| Plus (cls : ascii -> bool)
| GroupPlus (cls : ascii -> bool).

Definition lits (s : string) : list atom :=
  Chr <$> String.list_ascii_of_string s.

(** [\s] and [\w] of a [str] pattern. *)
Definition space (c : ascii) : bool := Py.isspace c.
Definition word (c : ascii) : bool := Py.isalnum c || Ascii.eqb c "_".

(** Length of the longest prefix of [s] made of [cls] characters. *)
Fixpoint run (cls : ascii -> bool) (s : string) : nat :=
  match s with
  | "" => 0
  | String c s' => if cls c then S (run cls s') else 0
  end%nat.

Fixpoint take (n : nat) (s : string) : string :=
  match n, s with
  | S n', String c s' => String c (take n' s')
  | _, _ => ""
  end.

Fixpoint drop (n : nat) (s : string) : string :=
  match n, s with
  | S n', String _ s' => drop n' s'
  | _, _ => s
  end.

(** The first success among [f k], [f (k-1)], ..., [f 1]: a greedy
    repetition gives characters back one at a time. *)
Fixpoint longest_first {R} (k : nat) (f : nat -> option R) : option R :=
  match k with
  | O => None
  | S k' => match f k with
            | Some r => Some r
            | None => longest_first k' f
            end
  end.

(** Match [p] at the start of [s]: the groups captured, in order, and the
    text left after the match. *)
Fixpoint match_at (p : list atom) (s : string) (groups : list string)
  : option (list string * string) :=
  match p with
  | [] => Some (groups, s)
  | Chr c :: p' =>
      match s with
      | String x s' => if Ascii.eqb x c then match_at p' s' groups else None
      | "" => None
      end
  | Plus cls :: p' =>
      longest_first (run cls s) (fun k => match_at p' (drop k s) groups)
  | GroupPlus cls :: p' =>
      longest_first (run cls s)
        (fun k => match_at p' (drop k s) (groups ++ [take k s]))
  end.

(** [re.sub(p, repl, s)] for a pattern that matches no empty text: scan left
    to right, replace each match and resume after it. [skip] counts the
    characters of the current match still to pass over. *)
Fixpoint sub_go (p : list atom) (repl : list string -> string)
    (skip : nat) (s : string) : string :=
  match s with
  | "" => ""
  | String c s' =>
      match skip with
      | S k => sub_go p repl k s'
      | O =>
          match match_at p s [] with
          | Some (groups, rest) =>
              repl groups
              +:+ sub_go p repl (String.length s - String.length rest - 1) s'
          | None => String c (sub_go p repl 0 s')
          end
      end
  end%nat.

Definition sub (p : list atom) (repl : list string -> string) (s : string)
  : string := sub_go p repl 0 s.

End Re.

(** ** class CodeAnalyzer *)

(** The two objects a [CodeAnalyzer] owns. The dictionary [analyze] returns
    holds these objects themselves, not copies: its entries are references,
    read through the analyzer by [deref]. *)
Inductive obj_ref := self_metrics | self_issues.

Inductive obj :=
| ODict (d : gmap string Z)
| OList (l : list string).

Record CodeAnalyzer := {
  metrics : gmap string Z;
  issues : list string
}.

Definition deref (self : CodeAnalyzer) (r : obj_ref) : obj :=
  match r with
  | self_metrics => ODict (metrics self)
  | self_issues => OList (issues self)
  end.

(** [CodeAnalyzer.__init__] *)
Definition CodeAnalyzer_init : CodeAnalyzer :=
  {| metrics := {[ "complexity" := 0; "efficiency" := 0; "readability" := 0 ]};
     issues := [] |}.

(** The conditions of the two list comprehensions of [analyze]. *)
Definition is_complex (l : string) : bool :=
  Py.contains "if" l || Py.contains "for" l.

Definition is_readable (l : string) : bool :=
  Py.truthy (Py.strip l) && negb (Py.startswith (Py.strip l) "#").

(** [CodeAnalyzer.analyze] *)
Definition analyze (self : CodeAnalyzer) (code : string)
  : CodeAnalyzer * gmap string obj_ref :=
  let lines := Py.split code Py.nl in
  let m1 := <[ "complexity" := Py.len (List.filter is_complex lines) ]> (metrics self) in
  let m2 := <[ "readability" := Py.len (List.filter is_readable lines) ]> m1 in
  ({| metrics := m2; issues := issues self |},
   {[ "metrics" := self_metrics; "issues" := self_issues ]}).

(** [CodeAnalyzer.suggest_improvements] *)
Definition suggest_improvements (code : string) : list string :=
  let suggestions := [] in
  let suggestions :=
    if Py.contains "import *" code
    then suggestions ++ ["Replace 'import *' with specific imports"]
    else suggestions in
  let suggestions :=
    if Py.contains "  " code
    then suggestions ++ ["Use consistent indentation"]
    else suggestions in
  let suggestions :=
    if Py.contains "TODO" code || Py.contains "FIXME" code
    then suggestions ++ ["Address TODO/FIXME comments"]
    else suggestions in
  suggestions.

(** ** class CodeOptimizer *)

(** [r'for\s+(\w+)\s+in\s+range\(len\((\w+)\)\)'] *)
Definition loop_pattern : list Re.atom :=
  Re.lits "for" ++ [Re.Plus Re.space; Re.GroupPlus Re.word; Re.Plus Re.space]
  ++ Re.lits "in" ++ [Re.Plus Re.space] ++ Re.lits "range(len("
  ++ [Re.GroupPlus Re.word] ++ Re.lits "))".

(** [r'for \1 in \2'] *)
Definition loop_repl (groups : list string) : string :=
  "for " +:+ nth 0 groups "" +:+ " in " +:+ nth 1 groups "".

(** [CodeOptimizer.optimize_loops] *)
Definition optimize_loops (code : string) : string :=
  Re.sub loop_pattern loop_repl code.

Definition is_import (line : string) : bool :=
  Py.startswith line "import " || Py.startswith line "from ".

(** [CodeOptimizer.optimize_imports] *)
Definition optimize_imports (code : string) : string :=
  let lines := Py.split code Py.nl in
  let imports := List.filter is_import lines in
  let other_lines := List.filter (fun line => negb (is_import line)) lines in
  Py.join (String Py.nl "") (Py.sort imports ++ other_lines).

(** ** class AgentLearner *)

(** One entry of [improvement_history]. *)
Record ImprovementRecord := {
  timestamp : string;
  type : string;
  before_lines : Z;
  after_lines : Z
}.

Record AgentLearner := {
  learned_patterns : gmap string Z;
  improvement_history : list ImprovementRecord
}.

(** [AgentLearner.__init__] *)
Definition AgentLearner_init : AgentLearner :=
  {| learned_patterns := ∅; improvement_history := [] |}.

(** The body of the loop of [extract_patterns]:
    [patterns[word] = patterns.get(word, 0) + 1]. *)
Definition count_word (patterns : gmap string Z) (word : string)
  : gmap string Z :=
  <[ word := default 0 (patterns !! word) + 1 ]> patterns.

(** [AgentLearner.extract_patterns]. The method assigns to no attribute of
    [self]: the learner is the same after the call. *)
Definition extract_patterns (self : AgentLearner) (code : string)
  : gmap string Z :=
  let patterns := foldl count_word ∅ (Py.split_ws code) in
  filter (fun kv => 1 < kv.2) patterns.

(** [AgentLearner.log_improvement]; [now] is [datetime.now().isoformat()]. *)
Definition log_improvement (self : AgentLearner)
    (before after improvement_type now : string) : AgentLearner :=
  {| learned_patterns := learned_patterns self;
     improvement_history :=
       improvement_history self ++
       [ {| timestamp := now;
            type := improvement_type;
            before_lines := Py.len (Py.split before Py.nl);
            after_lines := Py.len (Py.split after Py.nl) |} ] |}.

(** [sum(l)] *)
Definition sum (l : list Z) : Z := foldl Z.add 0 l.

(** [a / b] on integers: raises [ZeroDivisionError] when [b] is 0. *)
Definition truediv (a b : Z) : option Q :=
  if decide (b = 0) then None else Some (inject_Z a / inject_Z b)%Q.

(** [AgentLearner._calculate_avg_reduction] *)
Definition _calculate_avg_reduction (self : AgentLearner) : option Q :=
  match improvement_history self with
  | [] => Some 0%Q
  | _ =>
      let reductions :=
        (fun h => before_lines h - after_lines h) <$> improvement_history self in
      truediv (sum reductions) (Py.len reductions)
  end.

Record LearningStats := {
  total_improvements : Z;
  pattern_count : Z;
  avg_reduction : Q
}.

(** [AgentLearner.get_learning_stats] *)
Definition get_learning_stats (self : AgentLearner) : option LearningStats :=
  avg ← _calculate_avg_reduction self;
  Some {| total_improvements := Py.len (improvement_history self);
          pattern_count := Py.len_dict (learned_patterns self);
          avg_reduction := avg |}.

(** ** class CodingAgent *)

(** The optimizer has no attribute; the agent's state is its analyzer and its
    learner. *)
Record CodingAgent := {
  analyzer : CodeAnalyzer;
  learner : AgentLearner
}.

(** [CodingAgent.__init__] *)
Definition CodingAgent_init : CodingAgent :=
  {| analyzer := CodeAnalyzer_init; learner := AgentLearner_init |}.

(** The dictionary [improve_code] returns. *)
Record Report := {
  improved_code : string;
  analysis : gmap string obj_ref;
  suggestions : list string;
  patterns : gmap string Z;
  learning_stats : LearningStats
}.

(** [CodingAgent.improve_code]; [now] is the clock reading of the one call of
    [log_improvement]. *)
Definition improve_code (self : CodingAgent) (code now : string)
  : option (CodingAgent * Report) :=
  let original_code := code in
  let '(analyzer1, analysis) := analyze (analyzer self) code in
  let suggestions := suggest_improvements code in
  let code := optimize_loops code in
  let code := optimize_imports code in
  let patterns := extract_patterns (learner self) code in
  let learner1 :=
    log_improvement (learner self) original_code code "full_improvement" now in
  learning_stats ← get_learning_stats learner1;
  Some ({| analyzer := analyzer1; learner := learner1 |},
        {| improved_code := code;
           analysis := analysis;
           suggestions := suggestions;
           patterns := patterns;
           learning_stats := learning_stats |}).

(** The dictionary [get_performance_report] returns; its [learning_stats]
    entry is the field [stats]. *)
Record PerformanceReport := {
  name : string;
  version : string;
  capabilities : list string;
  stats : LearningStats
}.

(** [CodingAgent.get_performance_report] *)
Definition get_performance_report (self : CodingAgent)
  : option PerformanceReport :=
  learning_stats ← get_learning_stats (learner self);
  Some {| name := "Self-Improving Coding Agent";
          version := "0.1.0";
          capabilities := ["analyze"; "optimize"; "learn"];
          stats := learning_stats |}.

(** A session: the agent after a sequence of [improve_code] calls, each with
    its text and its clock reading, and the reports returned, in order. *)
Fixpoint session (self : CodingAgent) (calls : list (string * string))
  : option (CodingAgent * list Report) :=
  match calls with
  | [] => Some (self, [])
  | (code, now) :: calls' =>
      '(self1, report) ← improve_code self code now;
      '(self2, reports) ← session self1 calls';
      Some (self2, report :: reports)
  end.

(** ** The example of the specification *)

Definition lines_of (l : list string) : string :=
  Py.join (String Py.nl "") l.

Definition calc_example : string :=
  lines_of [ "def calc(x,y):";
             "    if x>0:";
             "        return x+y";
             "    else:";
             "        return x-y" ].

(** ** Vocabulary of the properties *)

(** [c] occurs in [s]. *)
Fixpoint has_char (c : ascii) (s : string) : bool :=
  match s with
  | "" => false
  | String x s' => Ascii.eqb x c || has_char c s'
  end.

(** A blank line: nothing but white space, the empty line included. *)
Definition blank (l : string) : Prop :=
  Forall (fun c => Py.isspace c = true) (String.list_ascii_of_string l).

(** A comment line: the trimmed line starts with the comment marker. *)
Definition comment_line (l : string) : Prop :=
  Py.startswith (Py.strip l) "#" = true.

(** The number of times [w] occurs in a list of tokens. *)
Definition occurrences (w : string) (tokens : list string) : Z :=
  Py.len (List.filter (String.eqb w) tokens).


(** What every call leaves true of a [CodeAnalyzer] made by [__init__]: the
    three keys of [metrics], [efficiency] at 0 and no issue. *)
Definition analyzer_as_built (a : CodeAnalyzer) : Prop :=
  dom (metrics a) = {[ "complexity"; "efficiency"; "readability" ]}
  /\ metrics a !! "efficiency" = Some 0
  /\ issues a = [].

(** What the [analysis] entry of a report shows under [key] once the agent is
    in state [a]. *)
Definition shown (a : CodingAgent) (key : string) (r : Report) : option obj :=
  match analysis r !! key with
  | Some ref => Some (deref (analyzer a) ref)
  | None => None
  end.

(** The order [Py.sort] sorts by. *)
Definition str_le (x y : string) : Prop := Py.lt y x = false.

(** The lines [optimize_imports] joins, from the lines of its input. *)
Definition arranged (lines : list string) : list string :=
  Py.sort (List.filter is_import lines)
  ++ List.filter (fun line => negb (is_import line)) lines.

(** The messages of [suggest_improvements], in the order of its checks. *)
Definition all_suggestions : list string :=
  [ "Replace 'import *' with specific imports";
    "Use consistent indentation";
    "Address TODO/FIXME comments" ].

(** The number of times [c] occurs in [s]. *)
Fixpoint count_char (c : ascii) (s : string) : nat :=
  match s with
  | "" => 0
  | String x s' => (if Ascii.eqb x c then 1 else 0) + count_char c s'
  end%nat.

(** A non-empty run of [\w] characters: what a group of the loop pattern
    captures. *)
Definition identifier (s : string) : Prop :=
  s <> "" /\ Forall (fun c => Re.word c = true) (String.list_ascii_of_string s).

(** Every capturing group of the pattern [p] ranges over characters that
    satisfy [P]. *)
Fixpoint captures_only (P : ascii -> Prop) (p : list Re.atom) : Prop :=
  match p with
  | [] => True
  | Re.GroupPlus cls :: p' =>
      (forall c, cls c = true -> P c) /\ captures_only P p'
  | _ :: p' => captures_only P p'
  end.

(** All the characters of [s] satisfy [P]. *)
Definition all_chars (P : ascii -> Prop) (s : string) : Prop :=
  Forall P (String.list_ascii_of_string s).

(** * Checks of the embedding on small inputs *)

Example split_empty : Py.split "" Py.nl = [""].
Proof. reflexivity. Qed.

Example split_ws_demo : Py.split_ws "  a b  a " = ["a"; "b"; "a"].
Proof. reflexivity. Qed.

Example strip_demo : Py.strip "  # x  " = "# x".
Proof. reflexivity. Qed.

Example sort_demo : Py.sort ["from b"; "import a"; "from a"] = ["from a"; "from b"; "import a"].
Proof. reflexivity. Qed.

Example loops_demo :
  optimize_loops ("for i in range(len(arr)):" +:+ String Py.nl "    x = arr[i]")
  = "for i in arr:" +:+ String Py.nl "    x = arr[i]".
Proof. reflexivity. Qed.

Example loops_demo2 :
  optimize_loops "a for  i_1  in   range(len(xs)) for j in range(len(y))z for k in range(len(y)"
  = "a for i_1 in xs for j in yz for k in range(len(y)".
Proof. reflexivity. Qed.

Example imports_demo :
  optimize_imports ("x = 1" +:+ String Py.nl ("import b" +:+ String Py.nl ("  import c" +:+ String Py.nl "from a import f")))
  = "from a import f" +:+ String Py.nl ("import b" +:+ String Py.nl ("x = 1" +:+ String Py.nl "  import c")).
Proof. reflexivity. Qed.

Example extract_demo :
  extract_patterns AgentLearner_init "a b a c b a" = {[ "a" := 3; "b" := 2 ]}.
Proof. vm_compute. reflexivity. Qed.

Example improve_demo :
  (fun '(a, r) => (improved_code r, suggestions r, learning_stats r,
                   improvement_history (learner a)))
    <$> improve_code CodingAgent_init ("for i in range(len(a)):" +:+ String Py.nl "a") "t0"
  = Some ("for i in a:" +:+ String Py.nl "a", [],
          {| total_improvements := 1; pattern_count := 0; avg_reduction := 0 |},
          [ {| timestamp := "t0"; type := "full_improvement";
               before_lines := 2; after_lines := 2 |} ]).
Proof. vm_compute. reflexivity. Qed.

(** * Facts about the string methods *)

Lemma app_cons a x y : String a x +:+ y = String a (x +:+ y).
Proof. reflexivity. Qed.

Lemma app_empty_l y : "" +:+ y = y.
Proof. reflexivity. Qed.

Section SplitJoin.

Variable sep : ascii.

Lemma split_not_nil s : Py.split s sep <> [].
Proof.
  destruct s as [|c s]; simpl; [discriminate|].
  destruct (Ascii.eqb c sep); [discriminate|].
  destruct (Py.split s sep); discriminate.
Qed.

Lemma split_no_sep s :
  Forall (fun piece => has_char sep piece = false) (Py.split s sep).
Proof.
  induction s as [|c s IH]; simpl.
  - repeat constructor.
  - destruct (Ascii.eqb c sep) eqn:E.
    + constructor; [reflexivity | exact IH].
    + destruct (Py.split s sep) as [|piece pieces].
      * repeat constructor. simpl. rewrite E. reflexivity.
      * inversion IH; subst. constructor; [|assumption].
        simpl. rewrite E. assumption.
Qed.

Lemma split_piece x :
  has_char sep x = false -> Py.split x sep = [x].
Proof.
  induction x as [|c x IH]; simpl; [reflexivity|].
  intros H. apply orb_false_iff in H as [E H].
  rewrite E, (IH H). reflexivity.
Qed.

Lemma split_piece_sep x rest :
  has_char sep x = false ->
  Py.split (x +:+ String sep rest) sep = x :: Py.split rest sep.
Proof.
  induction x as [|c x IH]; intros H.
  - rewrite app_empty_l. simpl. rewrite Ascii.eqb_refl. reflexivity.
  - simpl in H. apply orb_false_iff in H as [E H].
    rewrite app_cons. simpl. rewrite E, (IH H). reflexivity.
Qed.

(** Splitting what was joined gives the pieces back. *)
Lemma split_join l :
  l <> [] ->
  Forall (fun piece => has_char sep piece = false) l ->
  Py.split (Py.join (String sep "") l) sep = l.
Proof.
  induction l as [|x l IH]; [congruence|].
  intros _ H. inversion H as [|? ? Hx Hl]; subst.
  destruct l as [|y l].
  - simpl. apply split_piece, Hx.
  - change (Py.join (String sep "") (x :: y :: l))
      with (x +:+ String sep "" +:+ Py.join (String sep "") (y :: l)).
    change (String sep "" +:+ Py.join (String sep "") (y :: l))
      with (String sep (Py.join (String sep "") (y :: l))).
    rewrite split_piece_sep by assumption.
    rewrite IH; [reflexivity | discriminate | assumption].
Qed.

(** Joining what was split gives the text back. *)
Lemma join_split s : Py.join (String sep "") (Py.split s sep) = s.
Proof.
  induction s as [|c s IH]; simpl; [reflexivity|].
  destruct (Ascii.eqb c sep) eqn:E.
  - apply Ascii.eqb_eq in E as ->.
    pose proof (split_not_nil s) as Hne.
    destruct (Py.split s sep) as [|p ps]; [congruence|].
    change (Py.join (String sep "") ("" :: p :: ps))
      with (String sep (Py.join (String sep "") (p :: ps))).
    rewrite IH. reflexivity.
  - pose proof (split_not_nil s) as Hne.
    destruct (Py.split s sep) as [|p ps]; [congruence|].
    rewrite <- IH. destruct ps; reflexivity.
Qed.

End SplitJoin.

Section Sorting.

Lemma lt_asym x y : Py.lt x y = true -> Py.lt y x = false.
Proof.
  unfold Py.lt, String.ltb. rewrite (String.compare_antisym y x).
  destruct (String.compare x y); simpl; congruence.
Qed.

Lemma insert_sorted_perm x l : Permutation (Py.insert_sorted x l) (x :: l).
Proof.
  induction l as [|y l IH]; simpl; [reflexivity|].
  destruct (Py.lt y x); [|reflexivity].
  rewrite IH. apply perm_swap.
Qed.

Lemma sort_perm l : Permutation (Py.sort l) l.
Proof.
  induction l as [|x l IH]; simpl; [reflexivity|].
  rewrite insert_sorted_perm, IH. reflexivity.
Qed.

Lemma insert_sorted_head x l :
  Sorted str_le l -> HdRel str_le x l -> Py.insert_sorted x l = x :: l.
Proof.
  intros _ H. destruct l as [|y l]; [reflexivity|].
  inversion H; subst. simpl. unfold str_le in *.
  match goal with E : Py.lt y x = false |- _ => rewrite E end. reflexivity.
Qed.

(** A sorted list is left as it is. *)
Lemma sort_sorted_id l : Sorted str_le l -> Py.sort l = l.
Proof.
  induction 1 as [|x l Hs IH Hh]; simpl; [reflexivity|].
  rewrite IH. apply insert_sorted_head; assumption.
Qed.

Lemma insert_sorted_sorted x l :
  Sorted str_le l -> Sorted str_le (Py.insert_sorted x l).
Proof.
  induction 1 as [|y l Hs IH Hh]; simpl.
  - repeat constructor.
  - destruct (Py.lt y x) eqn:E.
    + constructor; [exact IH|].
      destruct l as [|z l]; simpl.
      * constructor. apply lt_asym, E.
      * destruct (Py.lt z x); constructor.
        -- inversion Hh; assumption.
        -- apply lt_asym, E.
    + constructor; [constructor; assumption|].
      constructor. exact E.
Qed.

Lemma sort_sorted l : Sorted str_le (Py.sort l).
Proof.
  induction l as [|x l IH]; simpl; [constructor|].
  apply insert_sorted_sorted, IH.
Qed.

Lemma sort_idempotent l : Py.sort (Py.sort l) = Py.sort l.
Proof. apply sort_sorted_id, sort_sorted. Qed.

End Sorting.

Section Filtering.

Context {A : Type} (f : A -> bool).

Lemma filter_all l :
  Forall (fun x => f x = true) l -> List.filter f l = l.
Proof.
  induction 1 as [|x l Hx _ IH]; simpl; [reflexivity|].
  rewrite Hx, IH. reflexivity.
Qed.

Lemma filter_none l :
  Forall (fun x => f x = false) l -> List.filter f l = [].
Proof.
  induction 1 as [|x l Hx _ IH]; simpl; [reflexivity|].
  rewrite Hx, IH. reflexivity.
Qed.

Lemma filter_kept l :
  Forall (fun x => f x = true) (List.filter f l).
Proof.
  induction l as [|x l IH]; simpl; [constructor|].
  destruct (f x) eqn:E; [constructor|]; assumption.
Qed.

Lemma filter_split_perm l :
  Permutation (List.filter f l ++ List.filter (fun x => negb (f x)) l) l.
Proof.
  induction l as [|x l IH]; simpl; [reflexivity|].
  destruct (f x); simpl.
  - constructor. exact IH.
  - rewrite <- Permutation_middle. constructor. exact IH.
Qed.

Lemma filter_length_le l :
  (length (List.filter f l) <= length l)%nat.
Proof.
  induction l as [|x l IH]; simpl; [lia|].
  destruct (f x); simpl; lia.
Qed.

Lemma filter_length_eq l :
  length (List.filter f l) = length l <-> Forall (fun x => f x = true) l.
Proof.
  induction l as [|x l IH]; simpl.
  - split; [constructor | reflexivity].
  - pose proof (filter_length_le l) as Hle.
    destruct (f x) eqn:E; simpl.
    + split.
      * intros H. constructor; [exact E|]. apply IH. lia.
      * intros H. inversion H; subst. f_equal. apply IH. assumption.
    + split; [lia|]. intros H. inversion H; subst. congruence.
Qed.

End Filtering.

(** * The optimizer *)

Section Optimizer.

Lemma longest_first_some {R} k (f : nat -> option R) r :
  Re.longest_first k f = Some r ->
  exists j, (1 <= j <= k)%nat /\ f j = Some r.
Proof.
  induction k as [|k IH]; simpl; [discriminate|].
  destruct (f (S k)) eqn:E.
  - intros [= <-]. exists (S k). split; [lia | exact E].
  - intros H. destruct (IH H) as (j & Hj & Hf). exists j. split; [lia | exact Hf].
Qed.

Lemma drop_length n : forall s,
  (String.length (Re.drop n s) <= String.length s)%nat.
Proof.
  induction n as [|n IH]; intros [|c s]; simpl; try lia.
  specialize (IH s). lia.
Qed.

(** A match leaves no more text than it was given. *)
Lemma match_at_length p : forall s g g' rest,
  Re.match_at p s g = Some (g', rest) ->
  (String.length rest <= String.length s)%nat.
Proof.
  induction p as [|a p IH]; intros s g g' rest H; simpl in H.
  - injection H as _ <-. lia.
  - destruct a as [c|cls|cls].
    + destruct s as [|x s]; [discriminate|].
      destruct (Ascii.eqb x c); [|discriminate].
      apply IH in H. simpl. lia.
    + apply longest_first_some in H as (j & _ & H).
      apply IH in H. pose proof (drop_length j s). lia.
    + apply longest_first_some in H as (j & _ & H).
      apply IH in H. pose proof (drop_length j s). lia.
Qed.

Lemma match_at_chr_consumes c p s g g' rest :
  Re.match_at (Re.Chr c :: p) s g = Some (g', rest) ->
  (String.length rest < String.length s)%nat.
Proof.
  simpl. destruct s as [|x s]; [discriminate|].
  destruct (Ascii.eqb x c); [|discriminate].
  intros H. apply match_at_length in H. simpl. lia.
Qed.

(** The loop pattern matches no empty text: [Re.sub] always moves on. *)
Lemma loop_pattern_consumes s groups rest :
  Re.match_at loop_pattern s [] = Some (groups, rest) ->
  (String.length rest < String.length s)%nat.
Proof. apply match_at_chr_consumes. Qed.

Lemma is_import_sorted imports :
  Forall (fun x => is_import x = true) imports ->
  Forall (fun x => is_import x = true) (Py.sort imports).
Proof.
  intros H. eapply Permutation_Forall; [|exact H].
  symmetry. apply sort_perm.
Qed.

Lemma arranged_perm lines : Permutation (arranged lines) lines.
Proof.
  unfold arranged. rewrite sort_perm. apply filter_split_perm.
Qed.

Lemma arranged_idempotent lines : arranged (arranged lines) = arranged lines.
Proof.
  unfold arranged.
  rewrite !List.filter_app.
  rewrite (filter_all is_import (Py.sort _))
    by apply is_import_sorted, filter_kept.
  rewrite (filter_none is_import (List.filter _ lines)).
  2:{ eapply Forall_impl; [apply filter_kept|].
      simpl. intros x Hx. apply negb_true_iff, Hx. }
  rewrite (filter_none (fun line => negb (is_import line)) (Py.sort _)).
  2:{ eapply Forall_impl; [apply is_import_sorted, filter_kept|].
      simpl. intros x Hx. rewrite Hx. reflexivity. }
  rewrite (filter_all (fun line => negb (is_import line)) (List.filter _ lines))
    by apply filter_kept.
  rewrite app_nil_r, sort_idempotent. reflexivity.
Qed.

(** The lines of the output are the arranged lines of the input. *)
Lemma optimize_imports_lines code :
  Py.split (optimize_imports code) Py.nl = arranged (Py.split code Py.nl).
Proof.
  unfold optimize_imports. fold (arranged (Py.split code Py.nl)).
  apply split_join.
  - intros E. pose proof (arranged_perm (Py.split code Py.nl)) as P.
    rewrite E in P. apply Permutation_nil in P.
    exact (split_not_nil _ _ P).
  - eapply Permutation_Forall; [|apply split_no_sep].
    symmetry. apply arranged_perm.
Qed.

(** Without import lines the text is returned as it is. *)
Lemma optimize_imports_no_imports code :
  Forall (fun line => is_import line = false) (Py.split code Py.nl) ->
  optimize_imports code = code.
Proof.
  intros H. unfold optimize_imports.
  rewrite (filter_none is_import) by exact H.
  rewrite (filter_all (fun line => negb (is_import line))).
  - apply join_split.
  - eapply Forall_impl; [exact H|]. simpl. intros x ->. reflexivity.
Qed.

End Optimizer.

(** C6. [optimize_imports] is idempotent: applying it to its own output
    changes nothing. *)
Theorem optimize_imports_idempotent (code : string) :
  optimize_imports (optimize_imports code) = optimize_imports code.
Proof.
  unfold optimize_imports at 1.
  fold (arranged (Py.split (optimize_imports code) Py.nl)).
  rewrite optimize_imports_lines, arranged_idempotent.
  reflexivity.
Qed.

(** C10. The lines of [optimize_imports(T)] are a permutation of the lines of
    [T]; in particular there are as many of them. *)
Theorem optimize_imports_permutes_lines (code : string) :
  Permutation (Py.split (optimize_imports code) Py.nl) (Py.split code Py.nl)
  /\ Py.len (Py.split (optimize_imports code) Py.nl) = Py.len (Py.split code Py.nl).
Proof.
  rewrite optimize_imports_lines.
  split; [apply arranged_perm|].
  unfold Py.len. f_equal. apply Permutation_length, arranged_perm.
Qed.

(** * The analyzer *)

Section Analyzer.

Lemma lstrip_cases l :
  (blank l /\ Py.lstrip l = "")
  \/ (~ blank l /\ exists c s, Py.lstrip l = String c s /\ Py.isspace c = false).
Proof.
  unfold blank. induction l as [|c l IH]; simpl.
  - left. split; [constructor | reflexivity].
  - destruct (Py.isspace c) eqn:E.
    + destruct IH as [[Hb Hl] | [Hb Hl]].
      * left. split; [constructor; assumption | assumption].
      * right. split; [|assumption].
        intros H. inversion H; subst. contradiction.
    + right. split.
      * intros H. inversion H; subst. congruence.
      * exists c, l. split; [reflexivity | exact E].
Qed.

Lemma rstrip_keeps c s : Py.isspace c = false -> Py.rstrip (String c s) <> "".
Proof.
  intros E. simpl. destruct (Py.rstrip s); [rewrite E|]; discriminate.
Qed.

(** The trimmed line is empty exactly for a blank line. *)
Lemma strip_empty_blank l : Py.truthy (Py.strip l) = false <-> blank l.
Proof.
  unfold Py.strip.
  destruct (lstrip_cases l) as [[Hb ->] | [Hb (c & s & -> & E)]].
  - simpl. tauto.
  - pose proof (rstrip_keeps c s E) as Hne.
    destruct (Py.rstrip (String c s)); [congruence|].
    simpl. split; [discriminate | contradiction].
Qed.

Lemma is_readable_spec l :
  is_readable l = true <-> ~ blank l /\ ~ comment_line l.
Proof.
  unfold is_readable, comment_line.
  rewrite andb_true_iff, negb_true_iff, <- strip_empty_blank.
  destruct (Py.truthy (Py.strip l)), (Py.startswith (Py.strip l) "#");
    split; intros [? ?]; split; congruence.
Qed.

Lemma analyze_readability self code :
  metrics (analyze self code).1 !! "readability"
  = Some (Py.len (List.filter is_readable (Py.split code Py.nl))).
Proof. unfold analyze. simpl. apply lookup_insert_eq. Qed.

Lemma analyze_complexity self code :
  metrics (analyze self code).1 !! "complexity"
  = Some (Py.len (List.filter is_complex (Py.split code Py.nl))).
Proof.
  unfold analyze. simpl.
  rewrite lookup_insert_ne by discriminate. apply lookup_insert_eq.
Qed.

Lemma analyze_efficiency self code :
  metrics (analyze self code).1 !! "efficiency" = metrics self !! "efficiency".
Proof.
  unfold analyze. simpl. rewrite !lookup_insert_ne by discriminate. reflexivity.
Qed.

End Analyzer.

(** C7. [analyze(T).readability] is at most the number of lines of [T], and
    equals it exactly when no line is blank and no line is a comment line. *)
Theorem readability_at_most_lines (self : CodeAnalyzer) (code : string) :
  exists r,
    metrics (analyze self code).1 !! "readability" = Some r
    /\ r <= Py.len (Py.split code Py.nl)
    /\ (r = Py.len (Py.split code Py.nl)
        <-> Forall (fun l => ~ blank l /\ ~ comment_line l) (Py.split code Py.nl)).
Proof.
  eexists. split; [apply analyze_readability|]. unfold Py.len. split.
  - apply Nat2Z.inj_le, filter_length_le.
  - rewrite Nat2Z.inj_iff, filter_length_eq.
    split; intros H; (eapply Forall_impl; [exact H|]); intros l; apply is_readable_spec.
Qed.

(** * The learner *)

Section Learner.


Lemma app_not_empty a c : a +:+ String c "" <> "".
Proof. destruct a; discriminate. Qed.



Lemma occurrences_cons w t ts :
  occurrences w (t :: ts)
  = (if String.eqb w t then 1 else 0) + occurrences w ts.
Proof.
  unfold occurrences, Py.len. simpl.
  destruct (String.eqb w t); simpl length; lia.
Qed.

Lemma occurrences_nonneg w ts : 0 <= occurrences w ts.
Proof. unfold occurrences, Py.len. lia. Qed.

(** The loop of [extract_patterns] adds to each word its number of
    occurrences, and leaves the other keys alone. *)
Lemma count_words_lookup tokens : forall (m : gmap string Z) w,
  foldl count_word m tokens !! w
  = if decide (occurrences w tokens = 0) then m !! w
    else Some (default 0 (m !! w) + occurrences w tokens).
Proof.
  induction tokens as [|t ts IH]; intros m w; simpl; [reflexivity|].
  rewrite IH, occurrences_cons. unfold count_word.
  pose proof (occurrences_nonneg w ts) as Hge.
  destruct (String.eqb_spec w t) as [->|Hne].
  - rewrite lookup_insert_eq. simpl.
    repeat case_decide; try lia; f_equal; lia.
  - rewrite lookup_insert_ne by congruence.
    rewrite Z.add_0_l. reflexivity.
Qed.

Lemma truediv_len {A} a (l : list A) :
  l <> [] -> truediv a (Py.len l) = Some (inject_Z a / inject_Z (Py.len l))%Q.
Proof.
  intros Hne. unfold truediv. case_decide as E; [|reflexivity].
  destruct l; [congruence|]. unfold Py.len in E. simpl in E. lia.
Qed.

(** [_calculate_avg_reduction] never raises. *)
Lemma calculate_avg_reduction_returns self :
  exists avg, _calculate_avg_reduction self = Some avg.
Proof.
  unfold _calculate_avg_reduction.
  destruct (improvement_history self) as [|h hs] eqn:E; [eauto|].
  rewrite truediv_len by discriminate. eauto.
Qed.

Lemma get_learning_stats_returns self :
  exists avg,
    _calculate_avg_reduction self = Some avg
    /\ get_learning_stats self
       = Some {| total_improvements := Py.len (improvement_history self);
                 pattern_count := Py.len_dict (learned_patterns self);
                 avg_reduction := avg |}.
Proof.
  destruct (calculate_avg_reduction_returns self) as [avg E].
  exists avg. split; [exact E|].
  unfold get_learning_stats. rewrite E. reflexivity.
Qed.

End Learner.

(** C5. The pattern table of [T] holds exactly the tokens of [T.split()] that
    occur at least twice, each with its number of occurrences; the table of
    the empty text is empty. *)
Theorem extract_patterns_counts (self : AgentLearner) (code : string) :
  (forall w,
     extract_patterns self code !! w
     = if decide (2 <= occurrences w (Py.split_ws code))
       then Some (occurrences w (Py.split_ws code))
       else None)
  /\ extract_patterns self "" = ∅.
Proof.
  split; [|apply map_filter_empty].
  intros w. unfold extract_patterns.
  pose proof (count_words_lookup (Py.split_ws code) ∅ w) as L.
  rewrite lookup_empty in L. simpl in L.
  destruct (decide (2 <= occurrences w (Py.split_ws code))) as [H2|H2].
  - apply map_lookup_filter_Some_2; [|simpl; lia].
    rewrite L. destruct (decide (occurrences w (Py.split_ws code) = 0)); [lia | reflexivity].
  - apply map_lookup_filter_None_2. rewrite L.
    destruct (decide (occurrences w (Py.split_ws code) = 0)); [left; reflexivity | right].
    intros x Hx. injection Hx as <-. simpl. lia.
Qed.

(** C8. With an empty history the statistics are returned, no division by
    zero is raised, and they report 0 improvements and the average 0.0. *)
Theorem stats_empty_history (self : AgentLearner) :
  improvement_history self = [] ->
  exists s,
    get_learning_stats self = Some s
    /\ total_improvements s = 0
    /\ avg_reduction s = 0%Q.
Proof.
  intros E. unfold get_learning_stats, _calculate_avg_reduction.
  rewrite E. simpl. eexists. split; [reflexivity|]. split; reflexivity.
Qed.

Lemma stats_empty_history_witness :
  improvement_history AgentLearner_init = []
  /\ exists s,
       get_learning_stats AgentLearner_init = Some s
       /\ total_improvements s = 0
       /\ avg_reduction s = 0%Q.
Proof.
  split; [reflexivity|].
  apply (stats_empty_history AgentLearner_init). reflexivity.
Defined.

(** * The agent *)

Section Agent.

(** [improve_code] never raises, and returns these values. *)
Lemma improve_code_returns self code now :
  let optimized := optimize_imports (optimize_loops code) in
  let learner1 :=
    log_improvement (learner self) code optimized "full_improvement" now in
  exists st,
    get_learning_stats learner1 = Some st
    /\ improve_code self code now
       = Some ({| analyzer := (analyze (analyzer self) code).1;
                  learner := learner1 |},
               {| improved_code := optimized;
                  analysis := (analyze (analyzer self) code).2;
                  suggestions := suggest_improvements code;
                  patterns := extract_patterns (learner self) optimized;
                  learning_stats := st |}).
Proof.
  intros optimized learner1.
  destruct (get_learning_stats_returns learner1) as (avg & _ & E).
  eexists. split; [exact E|].
  unfold improve_code. fold optimized. fold learner1.
  rewrite E. reflexivity.
Qed.

Lemma session_cons self code now calls a1 r1 :
  improve_code self code now = Some (a1, r1) ->
  session self ((code, now) :: calls)
  = '(a2, reports) ← session a1 calls; Some (a2, r1 :: reports).
Proof. intros E. simpl. rewrite E. reflexivity. Qed.

(** A property of the agent that every call keeps, with a property of the
    report every call from such an agent ensures, holds along a session. *)
Lemma session_keeps (P : CodingAgent -> Prop) (R : Report -> Prop) :
  (forall self code now a r,
      P self -> improve_code self code now = Some (a, r) -> P a /\ R r) ->
  forall calls self,
    P self ->
    exists a reports,
      session self calls = Some (a, reports) /\ P a /\ Forall R reports.
Proof.
  intros step. induction calls as [|[code now] calls IH]; intros self HP.
  - exists self, []. simpl. auto.
  - destruct (improve_code_returns self code now) as (st & _ & E).
    destruct (step _ _ _ _ _ HP E) as [HP1 HR].
    destruct (IH _ HP1) as (a & reports & Es & HPa & HRs).
    eexists a, (_ :: reports).
    rewrite (session_cons _ _ _ _ _ _ E), Es.
    split; [reflexivity|]. split; [exact HPa|]. constructor; assumption.
Qed.

Lemma improve_code_learned_patterns self code now a r :
  improve_code self code now = Some (a, r) ->
  learned_patterns (learner a) = learned_patterns (learner self)
  /\ pattern_count (learning_stats r)
     = Py.len_dict (learned_patterns (learner self)).
Proof.
  destruct (improve_code_returns self code now) as (st & Est & E).
  rewrite E. intros [= <- <-]. simpl. split; [reflexivity|].
  destruct (get_learning_stats_returns
              (log_improvement (learner self) code
                 (optimize_imports (optimize_loops code))
                 "full_improvement" now)) as (avg & _ & E').
  rewrite E' in Est. injection Est as <-. reflexivity.
Qed.

Lemma analyze_as_built a code :
  analyzer_as_built a -> analyzer_as_built (analyze a code).1.
Proof.
  intros (Hd & He & Hi). split; [|split].
  - unfold analyze. simpl. rewrite !dom_insert_L, Hd. set_solver.
  - rewrite analyze_efficiency. exact He.
  - exact Hi.
Qed.

Lemma init_as_built : analyzer_as_built CodeAnalyzer_init.
Proof.
  split; [|split]; [|reflexivity..].
  unfold CodeAnalyzer_init. simpl.
  rewrite !dom_insert_L, dom_singleton_L. set_solver.
Qed.

End Agent.

(** C9. From a fresh agent, whatever the calls of [improve_code],
    [learned_patterns] stays empty and [pattern_count] is 0 in
    [get_learning_stats], in every report returned and in
    [get_performance_report]. *)
Theorem learned_patterns_stays_empty (calls : list (string * string)) :
  exists a reports,
    session CodingAgent_init calls = Some (a, reports)
    /\ learned_patterns (learner a) = ∅
    /\ (exists s, get_learning_stats (learner a) = Some s /\ pattern_count s = 0)
    /\ Forall (fun r => pattern_count (learning_stats r) = 0) reports
    /\ (exists p, get_performance_report a = Some p
                  /\ pattern_count (stats p) = 0).
Proof.
  destruct (session_keeps
              (fun a => learned_patterns (learner a) = ∅)
              (fun r => pattern_count (learning_stats r) = 0)) with
    (calls := calls) (self := CodingAgent_init)
    as (a & reports & E & Ha & Hr).
  - intros self code now a r Hself H.
    apply improve_code_learned_patterns in H as [-> ->].
    rewrite Hself. split; reflexivity.
  - reflexivity.
  - exists a, reports. split; [exact E|]. split; [exact Ha|].
    destruct (get_learning_stats_returns (learner a)) as (avg & _ & Es).
    split; [|split; [exact Hr|]].
    + eexists. split; [exact Es|]. simpl. rewrite Ha. reflexivity.
    + unfold get_performance_report. rewrite Es. simpl.
      eexists. split; [reflexivity|]. simpl. rewrite Ha. reflexivity.
Qed.

(** C1, as the code has it. [pattern_count] is the size of
    [learned_patterns], which [improve_code] leaves as it was: the report of a
    call carries the size of the [learned_patterns] the agent had before the
    call, 0 for a fresh agent, beside the table extracted from the optimized
    text. *)
Theorem pattern_count_is_learned_patterns_size :
  (forall l : AgentLearner,
      exists s, get_learning_stats l = Some s
                /\ pattern_count s = Py.len_dict (learned_patterns l))
  /\ (forall self code now,
        exists a r,
          improve_code self code now = Some (a, r)
          /\ learned_patterns (learner a) = learned_patterns (learner self)
          /\ pattern_count (learning_stats r)
             = Py.len_dict (learned_patterns (learner self))
          /\ patterns r = extract_patterns (learner self) (improved_code r))
  /\ (forall code now,
        exists a r,
          improve_code CodingAgent_init code now = Some (a, r)
          /\ pattern_count (learning_stats r) = 0).
Proof.
  split; [|split].
  - intros l. destruct (get_learning_stats_returns l) as (avg & _ & E).
    eexists. split; [exact E | reflexivity].
  - intros self code now.
    destruct (improve_code_returns self code now) as (st & _ & E).
    pose proof (improve_code_learned_patterns _ _ _ _ _ E) as [H1 H2].
    eexists _, _. split; [exact E|]. split; [exact H1|]. split; [exact H2|].
    reflexivity.
  - intros code now.
    destruct (improve_code_returns CodingAgent_init code now) as (st & _ & E).
    pose proof (improve_code_learned_patterns _ _ _ _ _ E) as [_ H2].
    eexists _, _. split; [exact E|]. rewrite H2. reflexivity.
Qed.

(** C1 fails as stated: on the text [a a] the optimized text has one token
    occurring more than once, the extracted table has one entry, and the
    report's [pattern_count] is 0. *)
Lemma pattern_count_ignores_extracted_table :
  (fun '(_, r) => (Py.split_ws (improved_code r), patterns r,
                   pattern_count (learning_stats r)))
    <$> improve_code CodingAgent_init "a a" "2024-01-01T00:00:00"
  = Some (["a"; "a"], {[ "a" := 2 ]}, 0).
Proof. vm_compute. reflexivity. Qed.

(** C4. One call of [improve_code] analyses and reviews the original text,
    returns [optimize_imports(optimize_loops(T))], extracts patterns from that
    optimized text, and appends one record of the line counts of the original
    and of the optimized text. *)
Theorem improve_code_dataflow (self : CodingAgent) (code now : string) :
  let optimized := optimize_imports (optimize_loops code) in
  exists a r,
    improve_code self code now = Some (a, r)
    /\ (analyzer a, analysis r) = analyze (analyzer self) code
    /\ suggestions r = suggest_improvements code
    /\ improved_code r = optimized
    /\ patterns r = extract_patterns (learner self) optimized
    /\ learner a
       = log_improvement (learner self) code optimized "full_improvement" now
    /\ improvement_history (learner a)
       = improvement_history (learner self)
         ++ [ {| timestamp := now;
                 type := "full_improvement";
                 before_lines := Py.len (Py.split code Py.nl);
                 after_lines := Py.len (Py.split optimized Py.nl) |} ].
Proof.
  intros optimized.
  destruct (improve_code_returns self code now) as (st & _ & E).
  eexists _, _. split; [exact E|]. simpl.
  repeat split; reflexivity.
Qed.

(** C3, as the code has it. The [analysis] entry of a report is a dictionary
    with the two keys [metrics] and [issues], bound to the analyzer's own
    objects. The object under [metrics] has the three keys [complexity],
    [efficiency] and [readability]: the first two counts are those of the text
    of that call, [efficiency] is 0. The object under [issues] is the empty
    list. *)
Theorem analysis_entry_shape (calls : list (string * string)) (code now : string) :
  exists a0 reports0 a r,
    session CodingAgent_init calls = Some (a0, reports0)
    /\ improve_code a0 code now = Some (a, r)
    /\ dom (analysis r) = {[ "metrics"; "issues" ]}
    /\ analysis r !! "metrics" = Some self_metrics
    /\ analysis r !! "issues" = Some self_issues
    /\ deref (analyzer a) self_issues = OList []
    /\ exists m,
         deref (analyzer a) self_metrics = ODict m
         /\ dom m = {[ "complexity"; "efficiency"; "readability" ]}
         /\ m !! "complexity"
            = Some (Py.len (List.filter is_complex (Py.split code Py.nl)))
         /\ m !! "readability"
            = Some (Py.len (List.filter is_readable (Py.split code Py.nl)))
         /\ m !! "efficiency" = Some 0.
Proof.
  destruct (session_keeps
              (fun a => analyzer_as_built (analyzer a)) (fun _ => True)) with
    (calls := calls) (self := CodingAgent_init)
    as (a0 & reports0 & E0 & H0 & _).
  - intros self c n a r Hself H.
    destruct (improve_code_returns self c n) as (st & _ & E).
    rewrite E in H. injection H as <- <-. simpl.
    split; [apply analyze_as_built, Hself | exact I].
  - apply init_as_built.
  - destruct (improve_code_returns a0 code now) as (st & _ & E).
    pose proof (analyze_as_built _ code H0) as (Hd & He & Hi).
    eexists a0, reports0, _, _.
    split; [exact E0|]. split; [exact E|]. simpl.
    split; [rewrite dom_insert_L, dom_singleton_L; set_solver|].
    split; [reflexivity|]. split; [reflexivity|].
    split; [f_equal; exact Hi|].
    eexists. split; [reflexivity|].
    split; [exact Hd|].
    split; [apply analyze_complexity|].
    split; [apply analyze_readability | exact He].
Qed.

(** C3 fails as stated: the [analysis] entry has no key [complexity] and no
    key [readability]; its keys are [metrics] and [issues], and the object
    under [metrics] has a third key, [efficiency]. *)
Lemma analysis_entry_is_not_metrics :
  (fun '(a, r) =>
     (analysis r !! "complexity", analysis r !! "readability",
      analysis r !! "metrics", analysis r !! "issues",
      metrics (analyzer a) !! "efficiency"))
    <$> improve_code CodingAgent_init "x = 1" "2024-01-01T00:00:00"
  = Some (None, None, Some self_metrics, Some self_issues, Some 0).
Proof. vm_compute. reflexivity. Qed.

(** The object under [metrics] is shared: a later call rewrites what an
    earlier report shows. *)
Example analysis_is_shared :
  (fun '(a, reports) => List.map (shown a "metrics") reports)
    <$> session CodingAgent_init [("if a:", "t1"); ("x = 1", "t2")]
  = Some
      [ Some (ODict {[ "complexity" := 0; "efficiency" := 0; "readability" := 1 ]});
        Some (ODict {[ "complexity" := 0; "efficiency" := 0; "readability" := 1 ]}) ].
Proof. vm_compute. reflexivity. Qed.

Section CalcExample.

Lemma calc_example_complexity :
  Py.len (List.filter is_complex (Py.split calc_example Py.nl)) = 1.
Proof. vm_compute. reflexivity. Qed.

Lemma calc_example_readability :
  Py.len (List.filter is_readable (Py.split calc_example Py.nl)) = 5.
Proof. vm_compute. reflexivity. Qed.

Lemma calc_example_loops : optimize_loops calc_example = calc_example.
Proof. vm_compute. reflexivity. Qed.

Lemma calc_example_imports : optimize_imports calc_example = calc_example.
Proof. vm_compute. reflexivity. Qed.

Lemma calc_example_suggestions :
  suggest_improvements calc_example = ["Use consistent indentation"].
Proof. vm_compute. reflexivity. Qed.

End CalcExample.

(** C2, as the code has it. On the five-line example the metrics object of
    the analysis has complexity 1 and readability 5, the one suggestion is
    the indentation message (the indented lines hold two consecutive spaces),
    and the improved code is the input, left unchanged by [optimize_loops]
    and by [optimize_imports]. *)
Theorem calc_example_report (self : CodingAgent) (now : string) :
  exists a r,
    improve_code self calc_example now = Some (a, r)
    /\ analysis r !! "metrics" = Some self_metrics
    /\ metrics (analyzer a) !! "complexity" = Some 1
    /\ metrics (analyzer a) !! "readability" = Some 5
    /\ suggestions r = ["Use consistent indentation"]
    /\ optimize_loops calc_example = calc_example
    /\ optimize_imports calc_example = calc_example
    /\ improved_code r = calc_example.
Proof.
  destruct (improve_code_returns self calc_example now) as (st & _ & E).
  eexists _, _. split; [exact E|]. cbn [analyzer analysis suggestions improved_code].
  split; [reflexivity|].
  split; [rewrite analyze_complexity, calc_example_complexity; reflexivity|].
  split; [rewrite analyze_readability, calc_example_readability; reflexivity|].
  split; [apply calc_example_suggestions|].
  split; [apply calc_example_loops|].
  split; [apply calc_example_imports|].
  rewrite calc_example_loops. apply calc_example_imports.
Qed.

(** The text of the demonstration driver, the example between two newlines,
    gives the same counts and the same suggestion. *)
Example driver_example :
  (fun '(a, r) =>
     (metrics (analyzer a) !! "complexity", metrics (analyzer a) !! "readability",
      suggestions r))
    <$> improve_code CodingAgent_init
          (String Py.nl (calc_example +:+ String Py.nl "")) "2024-01-01T00:00:00"
  = Some (Some 1, Some 5, ["Use consistent indentation"]).
Proof. vm_compute. reflexivity. Qed.

(** C2 fails as stated: the suggestion list of the example is not empty. *)
Lemma calc_example_has_suggestion :
  (fun '(_, r) => suggestions r)
    <$> improve_code CodingAgent_init calc_example "2024-01-01T00:00:00"
  = Some ["Use consistent indentation"].
Proof. vm_compute. reflexivity. Qed.

(** * Further properties of the code *)

(** ** [suggest_improvements] *)

(** No suggestion is made exactly when the text holds none of [import *], two
    consecutive spaces, [TODO] and [FIXME]. *)
Theorem suggest_improvements_nil (code : string) :
  suggest_improvements code = []
  <-> Py.contains "import *" code = false
      /\ Py.contains "  " code = false
      /\ Py.contains "TODO" code = false
      /\ Py.contains "FIXME" code = false.
Proof.
  unfold suggest_improvements.
  destruct (Py.contains "import *" code), (Py.contains "  " code),
    (Py.contains "TODO" code), (Py.contains "FIXME" code); simpl;
    split; try discriminate; try (intros (? & ? & ? & ?); discriminate);
    auto.
Qed.

(** The suggestions come in the fixed order of the three checks, each message
    at most once, and a message is present exactly when its check matches. *)
Theorem suggest_improvements_order (code : string) :
  sublist (suggest_improvements code) all_suggestions
  /\ (In "Replace 'import *' with specific imports" (suggest_improvements code)
      <-> Py.contains "import *" code = true)
  /\ (In "Use consistent indentation" (suggest_improvements code)
      <-> Py.contains "  " code = true)
  /\ (In "Address TODO/FIXME comments" (suggest_improvements code)
      <-> Py.contains "TODO" code = true \/ Py.contains "FIXME" code = true).
Proof.
  unfold suggest_improvements, all_suggestions.
  destruct (Py.contains "import *" code), (Py.contains "  " code),
    (Py.contains "TODO" code), (Py.contains "FIXME" code); simpl;
    (split; [repeat first [apply sublist_nil | apply sublist_skip
                          | apply sublist_cons]|]);
    repeat split; intros; try reflexivity;
    repeat match goal with
      | H : _ \/ _ |- _ => destruct H
      | H : False |- _ => destruct H
      end;
    try discriminate; auto.
Qed.

(** ** [analyze] *)

Section Substrings.

Variable sep : ascii.

(** A prefix test with a pattern free of [sep] reads the first piece only. *)
Lemma startswith_piece sub :
  has_char sep sub = false ->
  forall s, Py.startswith s sub = Py.startswith (hd "" (Py.split s sep)) sub.
Proof.
  induction sub as [|a sub IH]; intros Hsub s.
  - destruct s, (hd "" _); reflexivity.
  - simpl in Hsub. apply orb_false_iff in Hsub as [Ha Hsub].
    destruct s as [|c s]; [reflexivity|]. simpl.
    destruct (Ascii.eqb c sep) eqn:E.
    + apply Ascii.eqb_eq in E as ->. simpl. rewrite Ha. reflexivity.
    + pose proof (split_not_nil sep s) as Hne.
      rewrite (IH Hsub s).
      destruct (Py.split s sep); [congruence | reflexivity].
Qed.

(** A non-empty pattern free of [sep] occurs in a text exactly when it occurs
    in one of its pieces. *)
Lemma contains_split sub :
  sub <> "" -> has_char sep sub = false ->
  forall s, Py.contains sub s = existsb (Py.contains sub) (Py.split s sep).
Proof.
  intros Hne Hsub. induction s as [|c s IH].
  - simpl. destruct sub; reflexivity.
  - change (Py.contains sub (String c s))
      with (Py.startswith (String c s) sub || Py.contains sub s).
    rewrite IH, (startswith_piece sub Hsub (String c s)). simpl.
    destruct (Ascii.eqb c sep) eqn:E.
    + simpl. destruct sub; [congruence | reflexivity].
    + pose proof (split_not_nil sep s) as Hs.
      destruct (Py.split s sep) as [|piece pieces]; [congruence|].
      simpl. rewrite orb_assoc. reflexivity.
Qed.

End Substrings.

Section Counting.

Context {A : Type}.

Lemma filter_length_zero (f : A -> bool) l :
  length (List.filter f l) = 0%nat <-> existsb f l = false.
Proof.
  induction l as [|x l IH]; simpl; [tauto|].
  destruct (f x); simpl; [split; [lia | discriminate] | exact IH].
Qed.

Lemma existsb_orb (f g : A -> bool) l :
  existsb (fun x => f x || g x) l = existsb f l || existsb g l.
Proof.
  induction l as [|x l IH]; simpl; [reflexivity|].
  rewrite IH. destruct (f x), (g x), (existsb f l); reflexivity.
Qed.

Lemma filter_length_perm (f : A -> bool) l1 l2 :
  Permutation l1 l2 ->
  length (List.filter f l1) = length (List.filter f l2).
Proof.
  induction 1 as [|x l1 l2 _ IH|x y l|l1 l2 l3 _ IH1 _ IH2]; simpl.
  - reflexivity.
  - destruct (f x); simpl; lia.
  - destruct (f x), (f y); reflexivity.
  - lia.
Qed.

End Counting.

(** [complexity] lies between 0 and the number of lines, and is 0 exactly
    when neither [if] nor [for] occurs anywhere in the text. *)
Theorem complexity_bounds (self : CodeAnalyzer) (code : string) :
  exists c,
    metrics (analyze self code).1 !! "complexity" = Some c
    /\ 0 <= c <= Py.len (Py.split code Py.nl)
    /\ (c = 0 <-> Py.contains "if" code = false
                  /\ Py.contains "for" code = false).
Proof.
  eexists. split; [apply analyze_complexity|]. unfold Py.len. split.
  - pose proof (filter_length_le is_complex (Py.split code Py.nl)). lia.
  - rewrite (contains_split Py.nl "if") by (discriminate || reflexivity).
    rewrite (contains_split Py.nl "for") by (discriminate || reflexivity).
    rewrite <- orb_false_iff, <- existsb_orb.
    fold is_complex.
    change (fun x => Py.contains "if" x || Py.contains "for" x) with is_complex.
    rewrite <- filter_length_zero. lia.
Qed.

(** [analyze] keeps nothing of an earlier call: analysing [T2] after [T1]
    leaves the analyzer, and returns, what analysing [T2] alone does. *)
Theorem analyze_overwrites (self : CodeAnalyzer) (code1 code2 : string) :
  analyze (analyze self code1).1 code2 = analyze self code2.
Proof.
  unfold analyze. simpl. f_equal. f_equal.
  apply map_eq. intros k.
  destruct (decide (k = "readability")) as [->|Hr].
  { rewrite !lookup_insert_eq. reflexivity. }
  rewrite !(lookup_insert_ne _ "readability") by congruence.
  destruct (decide (k = "complexity")) as [->|Hc].
  { rewrite !lookup_insert_eq. reflexivity. }
  rewrite !lookup_insert_ne by congruence. reflexivity.
Qed.

(** Reordering the imports changes neither count: the text returned by
    [optimize_imports] has the complexity and the readability of its input. *)
Theorem analyze_after_optimize_imports (self : CodeAnalyzer) (code : string) :
  analyze self (optimize_imports code) = analyze self code.
Proof.
  unfold analyze. rewrite optimize_imports_lines.
  unfold Py.len.
  rewrite !(filter_length_perm _ _ _ (arranged_perm (Py.split code Py.nl))).
  reflexivity.
Qed.

(** ** [optimize_loops] *)

Section Loops.

Lemma match_at_three_chars a b c p s g :
  Py.startswith s (String a (String b (String c ""))) = false ->
  Re.match_at (Re.Chr a :: Re.Chr b :: Re.Chr c :: p) s g = None.
Proof.
  destruct s as [|x [|y [|z s]]]; simpl;
    rewrite ?(Ascii.eqb_sym a x), ?(Ascii.eqb_sym b y), ?(Ascii.eqb_sym c z);
    repeat match goal with
      | |- context [Ascii.eqb ?u ?v] => destruct (Ascii.eqb u v); simpl
      end;
    intros H; try reflexivity; try discriminate.
  destruct s; discriminate.
Qed.

Lemma loop_pattern_needs_for s :
  Py.startswith s "for" = false -> Re.match_at loop_pattern s [] = None.
Proof. apply match_at_three_chars. Qed.

Lemma count_char_app c a b :
  count_char c (a +:+ b) = (count_char c a + count_char c b)%nat.
Proof.
  induction a as [|x a IH]; [reflexivity|].
  rewrite app_cons. simpl. rewrite IH. lia.
Qed.

Lemma count_char_none c s :
  all_chars (fun x => x <> c) s -> count_char c s = 0%nat.
Proof.
  unfold all_chars. induction s as [|x s IH]; simpl; [reflexivity|].
  intros H. inversion H as [|? ? Hx Hs]; subst.
  apply Ascii.eqb_neq in Hx. rewrite Hx, (IH Hs). reflexivity.
Qed.

(** The lines of a text are one more than its newlines. *)
Lemma split_length sep s :
  length (Py.split s sep) = S (count_char sep s).
Proof.
  induction s as [|c s IH]; simpl; [reflexivity|].
  destruct (Ascii.eqb c sep); simpl; [rewrite IH; reflexivity|].
  pose proof (split_not_nil sep s) as Hne.
  destruct (Py.split s sep); [congruence|]. simpl in *. lia.
Qed.

Lemma take_run (cls : ascii -> bool) : forall k s,
  (k <= Re.run cls s)%nat ->
  all_chars (fun c => cls c = true) (Re.take k s).
Proof.
  unfold all_chars.
  induction k as [|k IH]; intros s H.
  - destruct s; constructor.
  - destruct s as [|c s]; [constructor|].
    simpl in H |- *. destruct (cls c) eqn:E; [|lia].
    constructor; [exact E | apply IH; lia].
Qed.

(** What a match captures is made of the characters of its groups. *)
Lemma match_at_captures (P : ascii -> Prop) p : forall s g g' rest,
  captures_only P p ->
  Re.match_at p s g = Some (g', rest) ->
  Forall (all_chars P) g -> Forall (all_chars P) g'.
Proof.
  induction p as [|a p IH]; intros s g g' rest Hp H Hg; simpl in H.
  - injection H as <- _. exact Hg.
  - destruct a as [c|cls|cls]; simpl in Hp.
    + destruct s as [|x s]; [discriminate|].
      destruct (Ascii.eqb x c); [|discriminate]. eapply IH; eassumption.
    + apply longest_first_some in H as (j & _ & H). eapply IH; eassumption.
    + destruct Hp as [Hcls Hp].
      apply longest_first_some in H as (j & Hj & H).
      eapply IH; [exact Hp | exact H |].
      apply Forall_app. split; [exact Hg|]. constructor; [|constructor].
      eapply Forall_impl; [apply (take_run cls); lia|]. exact Hcls.
Qed.

Lemma loop_pattern_captures :
  captures_only (fun c => c <> Py.nl) loop_pattern.
Proof.
  assert (forall c, Re.word c = true -> c <> Py.nl) as H.
  { intros c Hc ->. discriminate. }
  unfold loop_pattern. simpl. auto.
Qed.

Lemma nth_all_chars P i groups :
  Forall (all_chars P) groups -> all_chars P (nth i groups "").
Proof.
  revert i. induction groups as [|g groups IH]; intros i H.
  - destruct i; constructor.
  - inversion H; subst. destruct i; simpl; auto.
Qed.

(** The text put in place of a match holds no newline. *)
Lemma loop_repl_one_line s groups rest :
  Re.match_at loop_pattern s [] = Some (groups, rest) ->
  count_char Py.nl (loop_repl groups) = 0%nat.
Proof.
  intros H.
  apply (match_at_captures _ _ _ _ _ _ loop_pattern_captures) in H;
    [|constructor].
  unfold loop_repl. rewrite !count_char_app.
  rewrite !(count_char_none Py.nl (nth _ groups ""))
    by apply nth_all_chars, H.
  reflexivity.
Qed.

Lemma sub_go_newlines s : forall skip,
  (count_char Py.nl (Re.sub_go loop_pattern loop_repl skip s)
   <= count_char Py.nl s)%nat.
Proof.
  induction s as [|c s IH]; intros skip; [simpl; lia|].
  cbn [Re.sub_go]. destruct skip as [|k].
  - destruct (Re.match_at loop_pattern (String c s) []) as [[groups rest]|] eqn:E.
    + rewrite count_char_app, (loop_repl_one_line _ _ _ E).
      specialize (IH (String.length (String c s) - String.length rest - 1)%nat).
      cbn [count_char]. destruct (Ascii.eqb c Py.nl); lia.
    + specialize (IH 0%nat). cbn [count_char]. destruct (Ascii.eqb c Py.nl); lia.
  - specialize (IH k). cbn [count_char]. destruct (Ascii.eqb c Py.nl); lia.
Qed.

Lemma sub_go_no_for s :
  Py.contains "for" s = false ->
  Re.sub_go loop_pattern loop_repl 0 s = s.
Proof.
  induction s as [|c s IH]; [reflexivity|].
  change (Py.contains "for" (String c s))
    with (Py.startswith (String c s) "for" || Py.contains "for" s).
  intros H. apply orb_false_iff in H as [H1 H2].
  cbn [Re.sub_go]. rewrite (loop_pattern_needs_for _ H1), (IH H2).
  reflexivity.
Qed.

End Loops.

(** A text in which [for] does not occur is returned as it is. *)
Theorem optimize_loops_without_for (code : string) :
  Py.contains "for" code = false -> optimize_loops code = code.
Proof. apply sub_go_no_for. Qed.

Lemma optimize_loops_without_for_witness :
  Py.contains "for" "x = [1, 2]" = false
  /\ optimize_loops "x = [1, 2]" = "x = [1, 2]".
Proof.
  split; [reflexivity|].
  apply (optimize_loops_without_for "x = [1, 2]"). reflexivity.
Defined.

(** [optimize_loops] adds no newline: its output has at most as many lines as
    its input. *)
Theorem optimize_loops_lines (code : string) :
  (count_char Py.nl (optimize_loops code) <= count_char Py.nl code)%nat
  /\ Py.len (Py.split (optimize_loops code) Py.nl)
     <= Py.len (Py.split code Py.nl).
Proof.
  pose proof (sub_go_newlines code 0) as H.
  split; [exact H|].
  unfold Py.len. rewrite !split_length.
  unfold optimize_loops, Re.sub. lia.
Qed.

Section LoopRewrite.

Lemma str_app_assoc a b c : (a +:+ b) +:+ c = a +:+ b +:+ c.
Proof.
  induction a as [|x a IH]; [reflexivity|].
  rewrite !app_cons, IH. reflexivity.
Qed.

Lemma str_app_length a b :
  String.length (a +:+ b) = (String.length a + String.length b)%nat.
Proof.
  induction a as [|x a IH]; [reflexivity|].
  rewrite app_cons. simpl. rewrite IH. reflexivity.
Qed.

Lemma word_not_space c : Re.word c = true -> Re.space c = false.
Proof.
  destruct c as [[] [] [] [] [] [] [] []]; vm_compute; congruence.
Qed.

Lemma run_app cls a s :
  all_chars (fun c => cls c = true) a -> Re.run cls s = 0%nat ->
  Re.run cls (a +:+ s) = String.length a.
Proof.
  unfold all_chars. intros Ha Hs.
  induction a as [|x a IH]; [exact Hs|].
  inversion Ha as [|? ? Hx Ha']; subst.
  rewrite app_cons. simpl. rewrite Hx, (IH Ha'). reflexivity.
Qed.

Lemma drop_app a s : Re.drop (String.length a) (a +:+ s) = s.
Proof.
  induction a as [|x a IH]; [destruct s; reflexivity|].
  rewrite app_cons. simpl. exact IH.
Qed.

Lemma take_app a s : Re.take (String.length a) (a +:+ s) = a.
Proof.
  induction a as [|x a IH]; [destruct s; reflexivity|].
  rewrite app_cons. simpl. rewrite IH. reflexivity.
Qed.

Lemma longest_first_top {R} k (f : nat -> option R) r :
  (0 < k)%nat -> f k = Some r -> Re.longest_first k f = Some r.
Proof. intros Hk H. destruct k; [lia|]. simpl. rewrite H. reflexivity. Qed.

Lemma length_pos a : a <> "" -> (0 < String.length a)%nat.
Proof. destruct a; [congruence | simpl; lia]. Qed.

Lemma match_lits l p s g :
  Re.match_at (Re.lits l ++ p) (l +:+ s) g = Re.match_at p s g.
Proof.
  induction l as [|x l IH]; [reflexivity|].
  rewrite app_cons. unfold Re.lits in *. simpl.
  rewrite Ascii.eqb_refl. exact IH.
Qed.

(** A greedy repetition that can take a whole run and go on does so. *)
Lemma match_plus cls a s p g r :
  a <> "" -> all_chars (fun c => cls c = true) a -> Re.run cls s = 0%nat ->
  Re.match_at p s g = Some r ->
  Re.match_at (Re.Plus cls :: p) (a +:+ s) g = Some r.
Proof.
  intros Hne Ha Hs H. simpl. rewrite (run_app _ _ _ Ha Hs).
  apply longest_first_top; [apply length_pos, Hne|].
  rewrite drop_app. exact H.
Qed.

Lemma match_group cls a s p g r :
  a <> "" -> all_chars (fun c => cls c = true) a -> Re.run cls s = 0%nat ->
  Re.match_at p s (g ++ [a]) = Some r ->
  Re.match_at (Re.GroupPlus cls :: p) (a +:+ s) g = Some r.
Proof.
  intros Hne Ha Hs H. simpl. rewrite (run_app _ _ _ Ha Hs).
  apply longest_first_top; [apply length_pos, Hne|].
  rewrite drop_app, take_app. exact H.
Qed.

Lemma sub_go_skip p repl a : forall t,
  Re.sub_go p repl (String.length a) (a +:+ t) = Re.sub_go p repl 0 t.
Proof.
  induction a as [|x a IH]; intros t; [reflexivity|].
  rewrite app_cons. simpl. apply IH.
Qed.

(** A match at the start of the text is replaced, and the scan resumes
    after it. *)
Lemma sub_go_match p repl m tail groups :
  m <> "" ->
  Re.match_at p (m +:+ tail) [] = Some (groups, tail) ->
  Re.sub_go p repl 0 (m +:+ tail) = repl groups +:+ Re.sub_go p repl 0 tail.
Proof.
  intros Hne H. destruct m as [|c m]; [congruence|].
  rewrite app_cons in *. cbn [Re.sub_go]. rewrite H.
  replace (String.length (String c (m +:+ tail)) - String.length tail - 1)%nat
    with (String.length m).
  - rewrite sub_go_skip. reflexivity.
  - simpl. rewrite str_app_length. lia.
Qed.

Lemma identifier_starts i s : identifier i -> Re.run Re.space (i +:+ s) = 0%nat.
Proof.
  intros [Hne Hi]. destruct i as [|c i]; [congruence|].
  inversion Hi as [|? ? Hc _]; subst.
  rewrite app_cons. simpl. rewrite (word_not_space c Hc). reflexivity.
Qed.

Lemma loop_matches i xs tail :
  identifier i -> identifier xs ->
  Re.match_at loop_pattern
    ("for" +:+ " " +:+ i +:+ " " +:+ "in" +:+ " " +:+ "range(len("
     +:+ xs +:+ "))" +:+ tail) []
  = Some ([i; xs], tail).
Proof.
  intros Hi Hxs. pose proof Hi as [Hi1 Hi2]. pose proof Hxs as [Hx1 Hx2].
  unfold loop_pattern. rewrite match_lits. cbn [app].
  apply match_plus;
    [discriminate | repeat constructor | apply identifier_starts, Hi|].
  apply match_group; [exact Hi1 | exact Hi2 | reflexivity|].
  apply match_plus; [discriminate | repeat constructor | reflexivity|].
  rewrite match_lits. cbn [app].
  apply match_plus; [discriminate | repeat constructor | reflexivity|].
  rewrite match_lits. cbn [app].
  apply match_group; [exact Hx1 | exact Hx2 | reflexivity|].
  rewrite <- (app_nil_r (Re.lits "))")), match_lits. reflexivity.
Qed.

End LoopRewrite.

(** A loop over the indices of a sequence, written
    [for i in range(len(xs))] with single spaces, is rewritten to
    [for i in xs]; the text after it is optimized in turn. *)
Theorem optimize_loops_rewrites (i xs tail : string) :
  identifier i -> identifier xs ->
  optimize_loops ("for " +:+ i +:+ " in range(len(" +:+ xs +:+ "))" +:+ tail)
  = "for " +:+ i +:+ " in " +:+ xs +:+ optimize_loops tail.
Proof.
  intros Hi Hxs. unfold optimize_loops, Re.sub.
  pose proof (loop_matches i xs tail Hi Hxs) as H.
  transitivity
    (Re.sub_go loop_pattern loop_repl 0
       (("for" +:+ " " +:+ i +:+ " " +:+ "in" +:+ " " +:+ "range(len("
         +:+ xs +:+ "))") +:+ tail)).
  { rewrite !str_app_assoc. reflexivity. }
  rewrite (sub_go_match _ _ _ _ [i; xs]).
  - unfold loop_repl. simpl nth. rewrite !str_app_assoc. reflexivity.
  - discriminate.
  - rewrite !str_app_assoc. exact H.
Qed.

Lemma optimize_loops_rewrites_witness :
  identifier "i" /\ identifier "arr"
  /\ optimize_loops ("for " +:+ "i" +:+ " in range(len(" +:+ "arr" +:+ "))" +:+ ":")
     = "for " +:+ "i" +:+ " in " +:+ "arr" +:+ optimize_loops ":".
Proof.
  assert (identifier "i") as Hi.
  { split; [discriminate | repeat constructor]. }
  assert (identifier "arr") as Hxs.
  { split; [discriminate | repeat constructor]. }
  split; [exact Hi|]. split; [exact Hxs|].
  apply (optimize_loops_rewrites "i" "arr" ":" Hi Hxs).
Defined.

(** ** [optimize_imports] *)

(** A text none of whose lines starts with [import ] or [from ] is returned
    as it is; an import indented inside a block is no import line. *)
Theorem optimize_imports_without_imports (code : string) :
  Forall (fun line => Py.startswith line "import " = false
                      /\ Py.startswith line "from " = false)
    (Py.split code Py.nl) ->
  optimize_imports code = code.
Proof.
  intros H. apply optimize_imports_no_imports.
  eapply Forall_impl; [exact H|]. simpl. intros line [H1 H2].
  unfold is_import. rewrite H1, H2. reflexivity.
Qed.

Lemma optimize_imports_without_imports_witness :
  Forall (fun line => Py.startswith line "import " = false
                      /\ Py.startswith line "from " = false)
    (Py.split ("def f():" +:+ String Py.nl "    import os") Py.nl)
  /\ optimize_imports ("def f():" +:+ String Py.nl "    import os")
     = "def f():" +:+ String Py.nl "    import os".
Proof.
  assert (Forall (fun line => Py.startswith line "import " = false
                              /\ Py.startswith line "from " = false)
            (Py.split ("def f():" +:+ String Py.nl "    import os") Py.nl)) as H.
  { repeat constructor. }
  split; [exact H|].
  apply (optimize_imports_without_imports _ H).
Defined.

(** The output of [optimize_imports] is laid out as the import lines, in
    ascending order, followed by the other lines in the order they had. *)
Theorem optimize_imports_layout (code : string) :
  exists imports,
    Py.split (optimize_imports code) Py.nl
    = imports
      ++ List.filter (fun line => negb (is_import line)) (Py.split code Py.nl)
    /\ Permutation imports (List.filter is_import (Py.split code Py.nl))
    /\ Sorted str_le imports
    /\ Forall (fun line => is_import line = true) imports.
Proof.
  exists (Py.sort (List.filter is_import (Py.split code Py.nl))).
  split; [apply optimize_imports_lines|].
  split; [apply sort_perm|].
  split; [apply sort_sorted|].
  apply is_import_sorted, filter_kept.
Qed.

(** ** [extract_patterns] *)

Section Tokens.

Lemma split_ws_go_sep c y : Py.isspace c = true -> forall x cur,
  Py.split_ws_go cur (x +:+ String c y)
  = Py.split_ws_go cur x ++ Py.split_ws y.
Proof.
  intros Hc. induction x as [|a x IH]; intros cur.
  - rewrite app_empty_l. simpl. rewrite Hc. destruct cur; reflexivity.
  - rewrite app_cons. simpl. destruct (Py.isspace a).
    + destruct cur; rewrite IH; reflexivity.
    + apply IH.
Qed.

(** The tokens of a text are those of its lines, line after line. *)
Lemma split_ws_join lines :
  Py.split_ws (Py.join (String Py.nl "") lines)
  = flat_map Py.split_ws lines.
Proof.
  induction lines as [|x lines IH]; [reflexivity|].
  destruct lines as [|y lines].
  - simpl. rewrite app_nil_r. reflexivity.
  - change (Py.join (String Py.nl "") (x :: y :: lines))
      with (x +:+ String Py.nl (Py.join (String Py.nl "") (y :: lines))).
    unfold Py.split_ws at 1. rewrite split_ws_go_sep by reflexivity.
    rewrite IH. reflexivity.
Qed.

Lemma split_ws_lines code :
  Py.split_ws code = flat_map Py.split_ws (Py.split code Py.nl).
Proof. rewrite <- split_ws_join, join_split. reflexivity. Qed.

Lemma extract_patterns_lookup self code w :
  extract_patterns self code !! w
  = if decide (2 <= occurrences w (Py.split_ws code))
    then Some (occurrences w (Py.split_ws code))
    else None.
Proof.
  unfold extract_patterns.
  pose proof (count_words_lookup (Py.split_ws code) ∅ w) as L.
  rewrite lookup_empty in L. simpl in L.
  destruct (decide (2 <= occurrences w (Py.split_ws code))) as [H2|H2];
    destruct (decide (occurrences w (Py.split_ws code) = 0)) as [H0|H0];
    try lia.
  - apply map_lookup_filter_Some_2; [exact L | simpl; lia].
  - apply map_lookup_filter_None_2. left. exact L.
  - apply map_lookup_filter_None_2. right. rewrite L.
    intros x [= <-]. simpl. lia.
Qed.

(** Texts with the same tokens, in any order, have the same table. *)
Lemma extract_patterns_perm self1 self2 code1 code2 :
  Permutation (Py.split_ws code1) (Py.split_ws code2) ->
  extract_patterns self1 code1 = extract_patterns self2 code2.
Proof.
  intros P. apply map_eq. intros w.
  rewrite !extract_patterns_lookup. unfold occurrences, Py.len.
  rewrite (filter_length_perm _ _ _ P). reflexivity.
Qed.

End Tokens.

(** Reordering the imports changes no count: the pattern table of the text
    returned by [optimize_imports] is that of its input. *)
Theorem extract_patterns_after_optimize_imports
    (self : AgentLearner) (code : string) :
  extract_patterns self (optimize_imports code) = extract_patterns self code.
Proof.
  apply extract_patterns_perm.
  rewrite (split_ws_lines (optimize_imports code)), (split_ws_lines code).
  rewrite optimize_imports_lines.
  apply Permutation_flat_map, arranged_perm.
Qed.



(** ** [log_improvement] and the history *)

Section History.

Lemma len_split s :
  Py.len (Py.split s Py.nl) = 1 + Z.of_nat (count_char Py.nl s).
Proof. unfold Py.len. rewrite split_length. lia. Qed.

(** The optimized text has at least one line and no more lines than the
    original. *)
Lemma optimized_line_count code :
  1 <= Py.len (Py.split (optimize_imports (optimize_loops code)) Py.nl)
    <= Py.len (Py.split code Py.nl).
Proof.
  rewrite optimize_imports_lines. unfold Py.len at 1 2.
  rewrite (Permutation_length (arranged_perm _)).
  fold (Py.len (Py.split (optimize_loops code) Py.nl)).
  rewrite !len_split.
  pose proof (sub_go_newlines code 0) as H.
  unfold optimize_loops, Re.sub. lia.
Qed.

Lemma session_inv self code now calls a reports :
  session self ((code, now) :: calls) = Some (a, reports) ->
  exists a1 r rs,
    improve_code self code now = Some (a1, r)
    /\ session a1 calls = Some (a, rs)
    /\ reports = r :: rs.
Proof.
  destruct (improve_code_returns self code now) as (st & _ & E).
  rewrite (session_cons _ _ _ _ _ _ E).
  destruct (session _ calls) as [[a2 rs]|] eqn:Es; [|discriminate].
  intros [= <- <-]. eauto 10.
Qed.

Lemma session_snoc calls : forall self a1 rs code now a2 r,
  session self calls = Some (a1, rs) ->
  improve_code a1 code now = Some (a2, r) ->
  session self (calls ++ [(code, now)]) = Some (a2, rs ++ [r]).
Proof.
  induction calls as [|[c n] calls IH]; intros self a1 rs code now a2 r Hs Hi.
  - injection Hs as <- <-. simpl. rewrite Hi. reflexivity.
  - apply session_inv in Hs as (a' & r' & rs' & E & Es & ->).
    change (((c, n) :: calls) ++ [(code, now)])
      with ((c, n) :: (calls ++ [(code, now)])).
    rewrite (session_cons _ _ _ _ _ _ E), (IH _ _ _ _ _ _ _ Es Hi).
    reflexivity.
Qed.

(** Every call of a session returns, with one report each. *)
Lemma session_returns calls : forall self,
  exists a reports,
    session self calls = Some (a, reports) /\ length reports = length calls.
Proof.
  induction calls as [|[code now] calls IH]; intros self.
  - exists self, []. split; reflexivity.
  - destruct (improve_code_returns self code now) as (st & _ & E).
    match type of E with _ = Some (?x, _) =>
      destruct (IH x) as (a & reports & Es & Hlen) end.
    eexists a, (_ :: reports).
    rewrite (session_cons _ _ _ _ _ _ E), Es.
    split; [reflexivity | simpl; congruence].
Qed.

Lemma sum_from acc l :
  Forall (fun x => 0 <= x) l -> acc <= foldl Z.add acc l.
Proof.
  intros H. revert acc. induction H as [|x l Hx _ IH]; intros acc; simpl; [lia|].
  specialize (IH (acc + x)). lia.
Qed.

(** With no record that gained lines, the average is not negative. *)
Lemma avg_reduction_nonneg self q :
  Forall (fun h => after_lines h <= before_lines h) (improvement_history self) ->
  _calculate_avg_reduction self = Some q -> (0 <= q)%Q.
Proof.
  intros H. unfold _calculate_avg_reduction.
  assert (Forall (fun x => 0 <= x)
            ((fun h => before_lines h - after_lines h)
               <$> improvement_history self)) as Hr.
  { induction H; simpl; constructor; [lia | assumption]. }
  destruct (improvement_history self) as [|h hs] eqn:E.
  - intros [= <-]. apply Qle_refl.
  - rewrite truediv_len by discriminate. intros [= <-].
    apply Qle_shift_div_l.
    + change 0%Q with (inject_Z 0). rewrite <- Zlt_Qlt.
      unfold Py.len. simpl length. lia.
    + rewrite Qmult_0_l. change 0%Q with (inject_Z 0). rewrite <- Zle_Qle.
      apply (sum_from 0), Hr.
Qed.

End History.

(** [log_improvement] appends one record and touches nothing else: the
    records logged before stay, in order, [learned_patterns] is kept, and the
    two line counts of the new record are one more than the newlines of the
    two texts, so that an empty text counts one line. *)
Theorem log_improvement_appends
    (self : AgentLearner) (before after kind now : string) :
  learned_patterns (log_improvement self before after kind now)
  = learned_patterns self
  /\ improvement_history (log_improvement self before after kind now)
     = improvement_history self
       ++ [ {| timestamp := now;
               type := kind;
               before_lines := 1 + Z.of_nat (count_char Py.nl before);
               after_lines := 1 + Z.of_nat (count_char Py.nl after) |} ].
Proof.
  split; [reflexivity|].
  unfold log_improvement. simpl. rewrite !len_split. reflexivity.
Qed.

(** A session of [n] calls returns [n] reports and appends [n] records to the
    history, after the records already there: one per call, in order, stamped
    with the clock reading of its call, of type [full_improvement], and with
    at least one line after and no more lines after than before. *)
Theorem session_history (calls : list (string * string)) (self : CodingAgent) :
  exists a reports news,
    session self calls = Some (a, reports)
    /\ length reports = length calls
    /\ improvement_history (learner a)
       = improvement_history (learner self) ++ news
    /\ timestamp <$> news = snd <$> calls
    /\ Forall (fun h => type h = "full_improvement"
                        /\ 1 <= after_lines h <= before_lines h) news.
Proof.
  revert self. induction calls as [|[code now] calls IH]; intros self.
  - exists self, [], []. rewrite app_nil_r. repeat split; constructor.
  - destruct (improve_code_returns self code now) as (st & _ & E).
    match type of E with _ = Some (?x, _) => destruct (IH x) as
        (a & reports & news & Es & Hlen & Hh & Hts & Hall) end.
    eexists a, (_ :: reports), (_ :: news).
    rewrite (session_cons _ _ _ _ _ _ E), Es.
    split; [reflexivity|]. split; [simpl; congruence|].
    split; [rewrite Hh; simpl; rewrite <- app_assoc; reflexivity|].
    split; [rewrite !fmap_cons, Hts; reflexivity|].
    constructor; [|exact Hall]. simpl.
    split; [reflexivity | apply optimized_line_count].
Qed.

(** The reports of a session count the improvements: the report of the call
    numbered [k], from 0, carries the number of records the history had
    before the session plus [k + 1]. *)
Theorem reports_count_improvements
    (calls : list (string * string)) (self : CodingAgent) :
  exists a reports,
    session self calls = Some (a, reports)
    /\ forall (k : nat) r,
         reports !! k = Some r ->
         total_improvements (learning_stats r)
         = Py.len (improvement_history (learner self)) + Z.of_nat k + 1.
Proof.
  revert self. induction calls as [|[code now] calls IH]; intros self.
  - exists self, []. split; [reflexivity|]. intros k r H. destruct k; discriminate.
  - destruct (improve_code_returns self code now) as (st & Est & E).
    match type of E with _ = Some (?x, _) =>
      destruct (IH x) as (a & reports & Es & Hk) end.
    eexists a, (_ :: reports).
    rewrite (session_cons _ _ _ _ _ _ E), Es.
    split; [reflexivity|]. intros k r H.
    match type of Est with get_learning_stats ?l = _ =>
      destruct (get_learning_stats_returns l) as (avg & _ & E') end.
    rewrite E' in Est. injection Est as <-.
    destruct k as [|k].
    + injection H as <-. simpl. unfold Py.len. rewrite length_app. simpl. lia.
    + simpl in H. rewrite (Hk _ _ H). simpl.
      unfold Py.len. rewrite length_app. simpl. lia.
Qed.

(** ** [get_learning_stats] and the reports *)


(** From a fresh agent no call logs a text that gained lines, so the average
    reduction is never negative: not in a report, not in the statistics read
    after the session. *)
Theorem avg_reduction_never_negative (calls : list (string * string)) :
  exists a reports s,
    session CodingAgent_init calls = Some (a, reports)
    /\ Forall (fun r => (0 <= avg_reduction (learning_stats r))%Q) reports
    /\ get_learning_stats (learner a) = Some s
    /\ (0 <= avg_reduction s)%Q.
Proof.
  destruct (session_keeps
              (fun a => Forall (fun h => after_lines h <= before_lines h)
                          (improvement_history (learner a)))
              (fun r => (0 <= avg_reduction (learning_stats r))%Q)) with
    (calls := calls) (self := CodingAgent_init)
    as (a & reports & E & Ha & Hr).
  - intros self code now a r Hself H.
    destruct (improve_code_returns self code now) as (st & Est & E).
    rewrite E in H. injection H as <- <-.
    assert (Forall (fun h => after_lines h <= before_lines h)
              (improvement_history
                 (log_improvement (learner self) code
                    (optimize_imports (optimize_loops code))
                    "full_improvement" now))) as Hnew.
    { simpl. apply Forall_app. split; [exact Hself|].
      constructor; [|constructor]. simpl. apply optimized_line_count. }
    split; [exact Hnew|]. simpl.
    match type of Est with get_learning_stats ?l = _ =>
      destruct (get_learning_stats_returns l) as (avg & Ea & E') end.
    rewrite E' in Est. injection Est as <-. simpl.
    eapply avg_reduction_nonneg; [exact Hnew | exact Ea].
  - constructor.
  - destruct (get_learning_stats_returns (learner a)) as (avg & Ea & Es).
    eexists a, reports, _. split; [exact E|]. split; [exact Hr|].
    split; [exact Es|]. simpl.
    eapply avg_reduction_nonneg; [exact Ha | exact Ea].
Qed.

(** [get_performance_report] after a call gives the fixed name, version and
    capabilities, and the very statistics the report of that call carries. *)
Theorem performance_report_after_call (self : CodingAgent) (code now : string) :
  exists a r,
    improve_code self code now = Some (a, r)
    /\ get_performance_report a
       = Some {| name := "Self-Improving Coding Agent";
                 version := "0.1.0";
                 capabilities := ["analyze"; "optimize"; "learn"];
                 stats := learning_stats r |}.
Proof.
  destruct (improve_code_returns self code now) as (st & Est & E).
  eexists _, _. split; [exact E|].
  unfold get_performance_report. simpl. rewrite Est. reflexivity.
Qed.

(** The metrics object is shared by all the reports of an agent: once a later
    call has analysed its text, every report returned so far shows, under
    [metrics], the counts of that last text. *)
Theorem reports_share_metrics
    (self : CodingAgent) (calls : list (string * string)) (code now : string) :
  exists a reports,
    session self (calls ++ [(code, now)]) = Some (a, reports)
    /\ length reports = S (length calls)
    /\ Forall (fun r => shown a "metrics" r = Some (ODict (metrics (analyzer a))))
         reports
    /\ metrics (analyzer a) !! "complexity"
       = Some (Py.len (List.filter is_complex (Py.split code Py.nl)))
    /\ metrics (analyzer a) !! "readability"
       = Some (Py.len (List.filter is_readable (Py.split code Py.nl))).
Proof.
  destruct (session_keeps (fun _ => True)
              (fun r => analysis r !! "metrics" = Some self_metrics)) with
    (calls := calls ++ [(code, now)]) (self := self)
    as (a & reports & E & _ & Hr).
  { intros s c n a r _ H.
    destruct (improve_code_returns s c n) as (st & _ & E).
    rewrite E in H. injection H as <- <-. split; [exact I | reflexivity]. }
  { exact I. }
  destruct (session_returns calls self) as (a1 & rs & Es & Hlen).
  destruct (improve_code_returns a1 code now) as (st & _ & Ei).
  pose proof (session_snoc _ _ _ _ _ _ _ _ Es Ei) as E'.
  rewrite E in E'. injection E' as -> ->.
  eexists _, _. split; [exact E|].
  split; [rewrite length_app; simpl; lia|].
  split.
  - eapply Forall_impl; [exact Hr|]. intros r Hm.
    unfold shown. rewrite Hm. reflexivity.
  - simpl. split; [apply analyze_complexity | apply analyze_readability].
Qed.

(** ** [improve_code] on a text with nothing to rewrite *)

(** A text without [for] and without import lines comes back unchanged, and
    the record logged has equal line counts. *)
Theorem improve_code_plain_text (self : CodingAgent) (code now : string) :
  Py.contains "for" code = false ->
  Forall (fun line => is_import line = false) (Py.split code Py.nl) ->
  exists a r,
    improve_code self code now = Some (a, r)
    /\ improved_code r = code
    /\ patterns r = extract_patterns (learner self) code
    /\ exists h,
         last (improvement_history (learner a)) = Some h
         /\ before_lines h = after_lines h.
Proof.
  intros Hfor Himp.
  destruct (improve_code_returns self code now) as (st & _ & E).
  assert (optimize_imports (optimize_loops code) = code) as Hopt.
  { unfold optimize_loops, Re.sub. rewrite (sub_go_no_for _ Hfor).
    apply optimize_imports_no_imports, Himp. }
  rewrite Hopt in E.
  eexists _, _. split; [exact E|]. simpl.
  split; [reflexivity|]. split; [reflexivity|].
  eexists. split; [apply last_snoc | reflexivity].
Qed.

Lemma improve_code_plain_text_witness :
  Py.contains "for" "x = 1" = false
  /\ Forall (fun line => is_import line = false) (Py.split "x = 1" Py.nl)
  /\ exists a r,
       improve_code CodingAgent_init "x = 1" "t" = Some (a, r)
       /\ improved_code r = "x = 1"
       /\ patterns r = extract_patterns (learner CodingAgent_init) "x = 1"
       /\ exists h,
            last (improvement_history (learner a)) = Some h
            /\ before_lines h = after_lines h.
Proof.
  assert (Forall (fun line => is_import line = false) (Py.split "x = 1" Py.nl))
    as H by repeat constructor.
  split; [reflexivity|]. split; [exact H|].
  apply (improve_code_plain_text CodingAgent_init "x = 1" "t" eq_refl H).
Defined.
